(** * drake-tutorials: the example programs as interaction with the library

    Every file of the repository is a small [main] that drives an external
    library (Drake, Eigen, graphviz, matplotlib-cpp).  The library is not
    part of the repository, so a program is embedded as a finite tree of
    library calls: each node names the call with its arguments, and the
    continuation receives whatever the library answers.  Running a program
    against an oracle (an arbitrary library behaviour) yields the trace of
    calls and the way [main] ended. *)

From Stdlib Require Import String Ascii List ZArith PrimFloat.
From Stdlib Require Import Reals Lra.
Import ListNotations.

#[local] Set Warnings "-inexact-float".  (* decimal literals round as in C++ *)

Local Open Scope string_scope.
Local Open Scope Z_scope.

(** ** Values exchanged with the library *)

(** Identity of an object that the library owns (a program, a builder, a
    system, a port, a context, ...).  The examples only hand such objects
    back to the library. *)
Definition Handle := nat.

(** A C pointer to a library object: [None] is the null pointer. *)
Definition Ptr := option Handle.

(** [const char*]: [None] is the null pointer. *)
Definition CString := option string.

(** [double] *)
Definition double := float.

(** [Eigen::VectorXd] *)
Definition VectorXd := list double.

Module symbolic.

(** [drake::symbolic::Variable], identified by the id the library gives
    it. *)
Definition Var := nat.

(** [drake::symbolic::Expression], as the overloaded operators of the
    examples build it.  The numeric literals of the examples are all
    integral. *)
Inductive Expression : Type :=
| EVar (v : Var)
| Const (c : Z)
| Add (a b : Expression)
| Sub (a b : Expression)
| Mul (a b : Expression)
| Neg (a : Expression)
| Pow (a : Expression) (n : nat).

(** [drake::symbolic::Formula] *)
Inductive Formula : Type :=
| Eq (a b : Expression)
| Le (a b : Expression)
| Ge (a b : Expression).

Fixpoint variables (e : Expression) : list Var :=
  match e with
  | EVar v => [v]
  | Const _ => []
  | Add a b | Sub a b | Mul a b => variables a ++ variables b
  | Neg a | Pow a _ => variables a
  end.

Definition free_variables (f : Formula) : list Var :=
  match f with
  | Eq a b | Le a b | Ge a b => variables a ++ variables b
  end.

(** Value of an expression over the reals at an assignment of the
    variables. *)
Fixpoint Evaluate (env : Var -> R) (e : Expression) : R :=
  match e with
  | EVar v => env v
  | Const c => IZR c
  | Add a b => (Evaluate env a + Evaluate env b)%R
  | Sub a b => (Evaluate env a - Evaluate env b)%R
  | Mul a b => (Evaluate env a * Evaluate env b)%R
  | Neg a => (- Evaluate env a)%R
  | Pow a n => (Evaluate env a ^ n)%R
  end.

Definition holds (env : Var -> R) (f : Formula) : Prop :=
  match f with
  | Eq a b => Evaluate env a = Evaluate env b
  | Le a b => (Evaluate env a <= Evaluate env b)%R
  | Ge a b => (Evaluate env a >= Evaluate env b)%R
  end.

End symbolic.
Import symbolic.

Declare Scope sym_scope.
Delimit Scope sym_scope with sym.
Bind Scope sym_scope with Expression.
Coercion EVar : Var >-> Expression.
Notation "# c" := (Const c) (at level 5, c constr at level 0) : sym_scope.
Notation "a + b" := (Add a b) : sym_scope.
Notation "a - b" := (Sub a b) : sym_scope.
Notation "a * b" := (Mul a b) : sym_scope.
Notation "- a" := (Neg a) : sym_scope.
Notation "a == b" := (Eq a b) (at level 70, no associativity) : sym_scope.
Notation "a <= b" := (Le a b) : sym_scope.
Notation "a >= b" := (Ge a b) : sym_scope.

(** A fixed-size Eigen vector: [rows] coefficients. *)
Fixpoint Matrix (A : Type) (rows : nat) : Type :=
  match rows with
  | O => unit
  | S n => (A * Matrix A n)%type
  end.

Fixpoint coefficients {A : Type} {rows : nat} : Matrix A rows -> list A :=
  match rows with
  | O => fun _ => []
  | S n => fun x => fst x :: coefficients (snd x)
  end.

(** [VectorXDecisionVariable] and [MatrixXDecisionVariable] of the sizes
    asked from [NewContinuousVariables], and element access [x[i]]. *)
Definition VectorDecisionVariable (rows : nat) := Matrix Var rows.
Definition MatrixDecisionVariable (rows cols : nat) :=
  Matrix (Matrix Var cols) rows.

Definition coeff0 {n} (x : VectorDecisionVariable (S n)) : Var := fst x.
Definition coeff1 {n} (x : VectorDecisionVariable (S (S n))) : Var :=
  fst (snd x).
Notation "x '[0]'" := (coeff0 x) (at level 1, left associativity, format "x [0]").
Notation "x '[1]'" := (coeff1 x) (at level 1, left associativity, format "x [1]").

(** [Binding<Constraint>], [Binding<Cost>]: what [AddConstraint] and
    [AddCost] return. *)
Definition Binding := Handle.

(** [drake::solvers::SolutionResult], by its enumerator value. *)
Definition SolutionResult := Z.

Record SolverId := { name : string }.

Record IpoptSolverDetails := {
  status : Z;
  ConvertStatusToString : string
}.

(** [drake::solvers::MathematicalProgramResult]: an object of the library,
    read through its accessors. *)
Definition MathematicalProgramResult := Handle.

(** What a call of a solver hands back to the program: the points at which
    the library invoked the visualization callbacks registered on the
    program while it was solving, in order, and the result. *)
Record SolveReturn := {
  callback_points : list VectorXd;
  result : MathematicalProgramResult
}.

(** Arguments of the library calls that are not singled out below. *)
Inductive Val : Type :=
| VObj (h : Handle)
| VInt (z : Z)
| VDouble (d : double)
| VStr (s : string)
| VBool (b : bool)
| VVector (v : VectorXd)
| VEnum (enumerator : string)
| VVar (v : Var)
| VExpr (e : Expression).

(** What the examples send to [std::cout]: string literals ([PStr]),
    [std::string] and [char*] values, and values of the library. *)
Inductive Printable : Type :=
| PStr (s : string)
| PString (s : string)
| PCStr (s : string)
| PBool (b : bool)
| PInt (z : Z)
| PDouble (d : double)
| PVariable (v : Var)
| PVariables {n} (x : VectorDecisionVariable n)
| PMatrix {r c} (m : MatrixDecisionVariable r c)
| PExpression (e : Expression)
| PBinding (b : Binding)
| PSolutionResult (r : SolutionResult)
| PVectorXd (v : VectorXd)
| PRowVectorXd (v : VectorXd).

(** ** Calls into the library

    [libE X] is a call whose answer has type [X].  The calls of the
    mathematical-programming API, of [stdio], of graphviz and of the model
    parser carry typed arguments; every other library method is a [LibCall]
    with its qualified name and its arguments. *)
Inductive libE : Type -> Type :=
(* drake::solvers *)
| MathematicalProgram_ctor : libE Handle
| NewContinuousVariables (prog : Handle) (rows : nat) (name : option string)
    : libE (VectorDecisionVariable rows)
| NewContinuousVariables_matrix (prog : Handle) (rows cols : nat)
    (name : string) : libE (MatrixDecisionVariable rows cols)
| AddConstraint (prog : Handle) (f : Formula) : libE Binding
| AddCost (prog : Handle) (e : Expression) : libE Binding
| AddVisualizationCallback (prog : Handle) (callback : string) {n}
    (vars : VectorDecisionVariable n) : libE Binding
| Solve (prog : Handle) (initial_guess : option VectorXd) : libE SolveReturn
| IpoptSolver_ctor : libE Handle
| IpoptSolver_Solve (solver prog : Handle) (initial_guess : option VectorXd)
    (solver_options : option Handle) : libE SolveReturn
| is_success (result : MathematicalProgramResult) : libE bool
| get_solution_result (result : MathematicalProgramResult)
    : libE SolutionResult
| GetSolution (result : MathematicalProgramResult) {n}
    (x : VectorDecisionVariable n) : libE VectorXd
| get_optimal_cost (result : MathematicalProgramResult) : libE double
| get_solver_id (result : MathematicalProgramResult) : libE SolverId
| get_solver_details_IpoptSolver (result : MathematicalProgramResult)
    : libE IpoptSolverDetails
(* std::cout << v *)
| Cout (v : Printable) : libE unit
(* <cstdio> and <graphviz/gvc.h> *)
| gvContext : libE Ptr
| fopen (filename mode : string) : libE Ptr
| agread (chan : Ptr) (disc : Ptr) : libE Ptr
| gvLayout (gvc g : Ptr) (engine : string) : libE Z
| gvRender (gvc g : Ptr) (format : string) (out : Ptr) : libE Z
| gvFreeLayout (gvc g : Ptr) : libE Z
| agclose (g : Ptr) : libE Z
| gvFreeContext (gvc : Ptr) : libE Z
(* drake::multibody *)
| AddMultibodyPlantSceneGraph (builder : Val) (time_step : double)
    : libE (Val * Val)
| AddModelFromFile (parser : Val) (file_name : string) : libE Val
(* drake::symbolic *)
| Variable_ctor (name : string) : libE Var
(* Eigen *)
| Eigen_size (v : Val) : libE Z
| Eigen_coeff (v : Val) (i : Z) : libE double
(* everything else *)
| LibCall (function : string) (args : list Val) : libE Val.

(** Name of the library function a call enters. *)
Definition call_name {X} (e : libE X) : string :=
  match e with
  | MathematicalProgram_ctor => "MathematicalProgram::MathematicalProgram"
  | NewContinuousVariables _ _ _ => "MathematicalProgram::NewContinuousVariables"
  | NewContinuousVariables_matrix _ _ _ _ =>
      "MathematicalProgram::NewContinuousVariables"
  | AddConstraint _ _ => "MathematicalProgram::AddConstraint"
  | AddCost _ _ => "MathematicalProgram::AddCost"
  | AddVisualizationCallback _ _ _ =>
      "MathematicalProgram::AddVisualizationCallback"
  | Solve _ _ => "drake::solvers::Solve"
  | IpoptSolver_ctor => "IpoptSolver::IpoptSolver"
  | IpoptSolver_Solve _ _ _ _ => "IpoptSolver::Solve"
  | is_success _ => "MathematicalProgramResult::is_success"
  | get_solution_result _ => "MathematicalProgramResult::get_solution_result"
  | GetSolution _ _ => "MathematicalProgramResult::GetSolution"
  | get_optimal_cost _ => "MathematicalProgramResult::get_optimal_cost"
  | get_solver_id _ => "MathematicalProgramResult::get_solver_id"
  | get_solver_details_IpoptSolver _ =>
      "MathematicalProgramResult::get_solver_details<IpoptSolver>"
  | Cout _ => "std::cout<<"
  | gvContext => "gvContext"
  | fopen _ _ => "fopen"
  | agread _ _ => "agread"
  | gvLayout _ _ _ => "gvLayout"
  | gvRender _ _ _ _ => "gvRender"
  | gvFreeLayout _ _ => "gvFreeLayout"
  | agclose _ => "agclose"
  | gvFreeContext _ => "gvFreeContext"
  | AddMultibodyPlantSceneGraph _ _ => "AddMultibodyPlantSceneGraph"
  | AddModelFromFile _ _ => "Parser::AddModelFromFile"
  | Variable_ctor _ => "symbolic::Variable::Variable"
  | Eigen_size _ => "Eigen::size"
  | Eigen_coeff _ _ => "Eigen::operator[]"
  | LibCall f _ => f
  end.

(** ** Programs *)

(** Behaviour that C++ leaves undefined and that the examples can reach. *)
Inductive UB : Type :=
| string_from_null        (* std::string built from a null char pointer *)
| ostream_null_cstring    (* a null char pointer sent to std::cout *)
| argv_out_of_bounds.     (* argv[i] with i > argc *)

(** A program: it returns, or calls the library and goes on with the
    answer, or runs into undefined behaviour.  The type is inductive, so a
    program makes finitely many calls whatever the library answers. *)
Inductive Prog (R : Type) : Type :=
| Ret (r : R)
| Vis {X : Type} (e : libE X) (k : X -> Prog R)
| Undefined (ub : UB).
Arguments Ret {R} r.
Arguments Vis {R X} e k.
Arguments Undefined {R} ub.

Fixpoint bind {A B} (p : Prog A) (f : A -> Prog B) : Prog B :=
  match p with
  | Ret a => f a
  | Vis e k => Vis e (fun x => bind (k x) f)
  | Undefined ub => Undefined ub
  end.

Definition trigger {X} (e : libE X) : Prog X := Vis e Ret.

Definition call (function : string) (args : list Val) : Prog Val :=
  trigger (LibCall function args).

Declare Scope prog_scope.
Delimit Scope prog_scope with prog.
Bind Scope prog_scope with Prog.
Notation "x <- p ;; q" := (bind p (fun x => q))
  (at level 61, p at next level, right associativity) : prog_scope.
Notation "p ;; q" := (bind p (fun _ => q))
  (at level 61, right associativity) : prog_scope.
Local Open Scope prog_scope.

(** A statement executed for each element of a list, in order. *)
Fixpoint for_each {A} (l : list A) (body : A -> Prog unit) : Prog unit :=
  match l with
  | [] => Ret tt
  | a :: l' => body a ;; for_each l' body
  end.

(** ** Running a program against a library *)

(** One step of a run: the call and what the library answered. *)
Inductive Event : Type :=
| Ev {X : Type} (e : libE X) (x : X).

Definition event_name (ev : Event) : string :=
  match ev with Ev e _ => call_name e end.

Inductive Outcome (R : Type) : Type :=
| Returned (r : R)
| Crashed (ub : UB).
Arguments Returned {R} r.
Arguments Crashed {R} ub.

(** A library behaviour: the answer to the [n]-th call of the run. *)
Definition Oracle := nat -> forall X, libE X -> X.

(** The calls a program makes from the [n]-th call of the run on, each
    with its answer. *)
Fixpoint trace_from {R} (o : Oracle) (n : nat) (p : Prog R) : list Event :=
  match p with
  | Ret _ => []
  | Undefined _ => []
  | Vis e k => let x := o n _ e in Ev e x :: trace_from o (S n) (k x)
  end.

(** How the program ends. *)
Fixpoint outcome_from {R} (o : Oracle) (n : nat) (p : Prog R) : Outcome R :=
  match p with
  | Ret r => Returned r
  | Undefined ub => Crashed ub
  | Vis e k => outcome_from o (S n) (k (o n _ e))
  end.

Definition trace {R} (o : Oracle) (p : Prog R) : list Event :=
  trace_from o 0 p.
Definition outcome {R} (o : Oracle) (p : Prog R) : Outcome R :=
  outcome_from o 0 p.

(** The sequence of library functions entered, without arguments and
    answers. *)
Definition shape {R} (o : Oracle) (p : Prog R) : list string :=
  map event_name (trace o p).

(** What was written to [std::cout]. *)
Definition printed (t : list Event) : list Printable :=
  flat_map (fun ev =>
    match ev with
    | Ev (Cout v) _ => [v]
    | _ => []
    end) t.

(** ** The command line

    [main(int argc, char* argv[])] receives the number of arguments and
    the arguments.  The array [argv] is the list of the arguments followed
    by a null pointer: [argv[i]] points to the [i]-th argument when there
    is one, [argv[i]] is null just behind the last argument, and nothing
    lies behind that.  The C++ runtime starts [main] with the length of
    the list as [argc]. *)
Definition argc_of (argv : list string) : Z := Z.of_nat (length argv).

Definition argv_at (argv : list string) (i : nat) : Prog CString :=
  match nth_error argv i with
  | Some s => Ret (Some s)
  | None => if Nat.eqb i (length argv) then Ret None
            else Undefined argv_out_of_bounds
  end.

(** The conversion of a [char*] to [std::string], as the call
    [model_inspector(meshcat, argv[1])] performs it. *)
Definition std_string (p : CString) : Prog string :=
  match p with
  | Some s => Ret s
  | None => Undefined string_from_null
  end.

(** [std::cout << p] for a [char*]. *)
Definition cout_cstr (p : CString) : Prog unit :=
  match p with
  | Some s => trigger (Cout (PCStr s))
  | None => Undefined ostream_null_cstring
  end.

Definition newline : string := String (ascii_of_nat 10) EmptyString.

(** The text that ends every [print]: a line break, three dashes, a line
    break. *)
Definition separator : string := newline ++ "---" ++ newline.

(** The library running the callbacks registered on a program at the
    points it reports: every callback at every point, in order. *)
Definition at_each_point (callbacks : list (VectorXd -> Prog unit))
    (points : list VectorXd) : Prog unit :=
  match callbacks with
  | [] => Ret tt
  | _ => for_each points
           (fun x => for_each callbacks (fun callback => callback x))
  end.

(** A solver call with the visualization callbacks that the program has
    registered: they run while the library solves, then the call returns
    the result. *)
Definition solving (callbacks : list (VectorXd -> Prog unit))
    (call : libE SolveReturn) : Prog MathematicalProgramResult :=
  r <- trigger call ;;
  at_each_point callbacks (callback_points r) ;;
  Ret (result r).

(** ** mathematical_program/

    In all the programs below, where C++ leaves the order of evaluation of
    the arguments of a call open, the calls are listed from left to
    right. *)

Module utils.
(** Modelled from the spec: [print] of the shared header utils/utils.h,
    which is not among the sources; the spec calls it a trivial print
    helper, and it is taken to be the variadic template that the other
    files define for themselves. *)
Definition print (value : list Printable) : Prog unit :=
  for_each value (fun v => trigger (Cout v)) ;;
  trigger (Cout (PStr separator)).
End utils.

Module basics.

Definition main : Prog Z :=
  prog <- trigger MathematicalProgram_ctor ;;
  x <- trigger (NewContinuousVariables prog 2 None) ;;

  utils.print [PVariables x] ;;
  utils.print [PExpression (#1 + #2 * x[0] + #3 * x[1] + #4 * x[1])%sym] ;;

  y <- trigger (NewContinuousVariables prog 2 (Some "dog")) ;;
  utils.print [PVariables y] ;;
  utils.print [PExpression (y[0] + y[0] + y[1] * y[1] * y[1])%sym] ;;

  var_matrix <- trigger (NewContinuousVariables_matrix prog 3 2 "A") ;;
  utils.print [PMatrix var_matrix] ;;

  Ret 0.

End basics.

Module simple_optimization_problem_infeasible.

Definition print (value : list Printable) : Prog unit :=
  for_each value (fun v => trigger (Cout v)) ;;
  trigger (Cout (PStr separator)).

Definition main (argc : Z) (argv : list string) : Prog Z :=
  prog <- trigger MathematicalProgram_ctor ;;
  x_ <- trigger (NewContinuousVariables prog 1 None) ;;
  let x := x_[0] in
  print [PStr "x = "; PVariable x] ;;
  y_ <- trigger (NewContinuousVariables prog 1 None) ;;
  let y := y_[0] in
  print [PStr "y = "; PVariable y] ;;
  constraint1 <- trigger (AddConstraint prog (x + y >= #1)%sym) ;;
  print [PStr "constraint1: "; PBinding constraint1] ;;
  constraint2 <- trigger (AddConstraint prog (x + y <= #0)%sym) ;;
  print [PStr "constraint2: "; PBinding constraint2] ;;
  cost1 <- trigger (AddCost prog x) ;;
  print [PStr "cost1: "; PBinding cost1] ;;

  result <- solving [] (Solve prog None) ;;
  success <- trigger (is_success result) ;;
  print [PStr "Success: "; PBool success] ;;
  solution_result <- trigger (get_solution_result result) ;;
  print [PStr "Solution result: "; PSolutionResult solution_result] ;;
  Ret 0.

End simple_optimization_problem_infeasible.

Module simple_optimization_problem_feasible.

Definition print (value : list Printable) : Prog unit :=
  for_each value (fun v => trigger (Cout v)) ;;
  trigger (Cout (PStr separator)).

Definition main (argc : Z) (argv : list string) : Prog Z :=
  prog <- trigger MathematicalProgram_ctor ;;
  x <- trigger (NewContinuousVariables prog 2 None) ;;
  print [PStr "x = "; PVariables x] ;;
  constraint1 <- trigger (AddConstraint prog (x[0] + x[1] == #1)%sym) ;;
  print [PStr "constraint1: "; PBinding constraint1] ;;
  constraint2 <- trigger (AddConstraint prog (x[0] <= x[1])%sym) ;;
  print [PStr "constraint2: "; PBinding constraint2] ;;
  cost1 <- trigger (AddCost prog (Pow x[0] 2 + Pow x[1] 2)%sym) ;;
  print [PStr "cost1: "; PBinding cost1] ;;

  result <- solving [] (Solve prog None) ;;

  success <- trigger (is_success result) ;;
  print [PStr "Success: "; PBool success] ;;
  solution <- trigger (GetSolution result x) ;;
  print [PStr "x* = "; PVectorXd solution] ;;
  optimal_cost <- trigger (get_optimal_cost result) ;;
  print [PStr "optimal cost = "; PDouble optimal_cost] ;;
  solver_id <- trigger (get_solver_id result) ;;
  print [PStr "solver is: "; PString (name solver_id)] ;;
  Ret 0.

End simple_optimization_problem_feasible.

Module manually_choosing_a_solver.

Definition print (value : list Printable) : Prog unit :=
  for_each value (fun v => trigger (Cout v)) ;;
  trigger (Cout (PStr separator)).

Definition main (argc : Z) (argv : list string) : Prog Z :=
  prog <- trigger MathematicalProgram_ctor ;;
  x <- trigger (NewContinuousVariables prog 2 None) ;;
  print [PStr "x = "; PVariables x] ;;
  constraint1 <- trigger (AddConstraint prog (x[0] + x[1] == #1)%sym) ;;
  print [PStr "constraint1: "; PBinding constraint1] ;;
  constraint2 <- trigger (AddConstraint prog (#0 <= x[1])%sym) ;;
  print [PStr "constraint2: "; PBinding constraint2] ;;
  constraint3 <- trigger (AddConstraint prog (x[1] <= #1)%sym) ;;
  print [PStr "constraint3: "; PBinding constraint3] ;;
  cost1 <- trigger (AddCost prog x[0]) ;;
  print [PStr "cost1: "; PBinding cost1] ;;

  solver <- trigger IpoptSolver_ctor ;;
  let initial_guess : VectorXd := [1; 1]%float in
  result <- solving []
              (IpoptSolver_Solve solver prog (Some initial_guess) None) ;;
  solution_result <- trigger (get_solution_result result) ;;
  print [PSolutionResult solution_result] ;;
  solution <- trigger (GetSolution result x) ;;
  print [PStr "x* = "; PVectorXd solution] ;;
  solver_id <- trigger (get_solver_id result) ;;
  print [PStr "Solver is "; PString (name solver_id)] ;;
  details <- trigger (get_solver_details_IpoptSolver result) ;;
  details' <- trigger (get_solver_details_IpoptSolver result) ;;
  print [PStr "Ipopt solver status: "; PInt (status details);
         PStr ", meaning "; PCStr (ConvertStatusToString details')] ;;
  Ret 0.

End manually_choosing_a_solver.

Module good_or_bad_initial_guess.

Definition print (value : list Printable) : Prog unit :=
  for_each value (fun v => trigger (Cout v)) ;;
  trigger (Cout (PStr separator)).

Definition main (argc : Z) (argv : list string) : Prog Z :=
  prog <- trigger MathematicalProgram_ctor ;;
  x <- trigger (NewContinuousVariables prog 2 None) ;;
  _ <- trigger (AddConstraint prog (Pow x[0] 2 + Pow x[1] 2 == #100)%sym) ;;
  _ <- trigger (AddCost prog (Pow x[0] 2 - Pow x[1] 2)%sym) ;;
  solver <- trigger IpoptSolver_ctor ;;
  result <- solving [] (IpoptSolver_Solve solver prog None None) ;;
  success <- trigger (is_success result) ;;
  print [PStr "Without a good initial guess, success? "; PBool success] ;;
  solution <- trigger (GetSolution result x) ;;
  print [PStr "Solution:"; PVectorXd solution] ;;
  let initial_guess : VectorXd := [-5; 0]%float in
  result <- solving []
              (IpoptSolver_Solve solver prog (Some initial_guess) None) ;;
  success <- trigger (is_success result) ;;
  print [PStr "With a good initial guess, success? "; PBool success] ;;
  solution <- trigger (GetSolution result x) ;;
  print [PStr "Solution:"; PVectorXd solution] ;;
  Ret 0.

End good_or_bad_initial_guess.

Module add_callback.

Definition print (value : list Printable) : Prog unit :=
  for_each value (fun v => trigger (Cout v)) ;;
  trigger (Cout (PStr separator)).

Definition update (x : VectorXd) : Prog unit :=
  print [PStr "x = "; PRowVectorXd x].

Definition main (argc : Z) (argv : list string) : Prog Z :=
  prog <- trigger MathematicalProgram_ctor ;;
  x <- trigger (NewContinuousVariables prog 2 None) ;;
  _ <- trigger (AddConstraint prog (x[0] * x[1] == #9)%sym) ;;
  _ <- trigger (AddCost prog (Pow x[0] 2 + Pow x[1] 2)%sym) ;;
  _ <- trigger (AddVisualizationCallback prog "update" x) ;;

  let x_init : VectorXd := [4; 5]%float in
  _ <- solving [update] (Solve prog (Some x_init)) ;;
  Ret 0.

End add_callback.

(** ** modeling_dynamics_systems/ *)

(** [M_PI] *)
Definition M_PI : double := 0x1.921fb54442d18p+1%float.

Module combinations_of_systems.

Definition createPNGFromDotFile (dot_file_name : string) : Prog bool :=
  gvc <- trigger gvContext ;;
  fp <- trigger (fopen (dot_file_name ++ ".dot") "r") ;;
  g <- trigger (agread fp None) ;;
  _ <- trigger (gvLayout gvc g "dot") ;;
  png <- trigger (fopen (dot_file_name ++ ".png") "w") ;;
  _ <- trigger (gvRender gvc g "png" png) ;;
  _ <- trigger (gvFreeLayout gvc g) ;;
  _ <- trigger (agclose g) ;;
  freed <- trigger (gvFreeContext gvc) ;;
  Ret (negb (freed =? 0)).

Definition main (argc : Z) (argv : list string) : Prog Z :=
  diagram_builder <- call "DiagramBuilder<double>::DiagramBuilder" [] ;;

  pendulum <- call "DiagramBuilder::AddNamedSystem<PendulumPlant<double>>"
                [diagram_builder; VStr "pendulum"] ;;

  let kp : VectorXd := [ 10 ]%float in
  let ki : VectorXd := [ 1 ]%float in
  let kd : VectorXd := [ 1 ]%float in
  controller <- call "DiagramBuilder::AddNamedSystem<PidController<double>>"
                  [diagram_builder; VStr "controller";
                   VVector kp; VVector ki; VVector kd] ;;

  state_out <- call "PendulumPlant::get_state_output_port" [pendulum] ;;
  estimated <- call "PidController::get_input_port_estimated_state"
                 [controller] ;;
  _ <- call "DiagramBuilder::Connect"
         [diagram_builder; state_out; estimated] ;;
  control_out <- call "PidController::get_output_port" [controller] ;;
  pendulum_in <- call "PendulumPlant::get_input_port" [pendulum] ;;
  _ <- call "DiagramBuilder::Connect"
         [diagram_builder; control_out; pendulum_in] ;;

  desired <- call "PidController::get_input_port_desired_state"
               [controller] ;;
  _ <- call "DiagramBuilder::ExportInput" [diagram_builder; desired] ;;

  state_out <- call "PendulumPlant::get_state_output_port" [pendulum] ;;
  logger <- call "LogVectorOutput<double>" [state_out; diagram_builder] ;;
  _ <- call "VectorLogSink::set_name" [logger; VStr "logger"] ;;

  diagram <- call "DiagramBuilder::Build" [diagram_builder] ;;
  _ <- call "Diagram::set_name" [diagram; VStr "diagram"] ;;

  out <- call "std::ofstream::ofstream" [VStr "graph.dot"] ;;
  graphviz <- call "Diagram::GetGraphvizString" [diagram; VInt 2] ;;
  _ <- call "std::ofstream::operator<<" [out; graphviz] ;;
  _ <- call "std::ofstream::close" [out] ;;
  _ <- createPNGFromDotFile "graph" ;;

  simulator <- call "Simulator<double>::Simulator" [diagram] ;;
  context <- call "Simulator::get_mutable_context" [simulator] ;;

  let desired_angle : double := (M_PI / 2)%float in

  pendulum_context <- call "Diagram::GetMutableSubsystemContext"
                        [diagram; pendulum; context] ;;
  state <- call "Context::get_mutable_continuous_state_vector"
             [pendulum_context] ;;
  _ <- call "VectorBase::SetFromVector"
         [state; VVector [desired_angle + 0.1; 0.2]%float] ;;

  port <- call "Diagram::get_input_port" [diagram; VInt 0] ;;
  _ <- call "InputPort::FixValue"
         [port; context; VVector [desired_angle; 0]%float] ;;

  _ <- call "Simulator::Initialize" [simulator] ;;
  _ <- call "Simulator::AdvanceTo" [simulator; VDouble 40%float] ;;

  final <- call "Simulator::get_context" [simulator] ;;
  log <- call "VectorLogSink::FindLog" [logger; final] ;;

  t <- call "VectorLog::sample_times" [log] ;;
  _ <- call "plt::figure" [] ;;
  data <- call "VectorLog::data" [log] ;;
  row0 <- call "Eigen::row" [data; VInt 0] ;;
  _ <- call "plt::plot" [t; row0; VStr "tab:blue"] ;;
  first <- trigger (Eigen_coeff t 0) ;;
  size <- trigger (Eigen_size t) ;;
  last <- trigger (Eigen_coeff t (size - 1)) ;;
  _ <- call "plt::plot"
         [VVector [first; last];
          VVector [desired_angle; desired_angle]; VStr "tab:green"] ;;

  _ <- call "plt::xlabel" [VStr "Sample time"] ;;
  _ <- call "plt::ylabel" [VStr "theta (rad)"] ;;
  _ <- call "plt::show" [] ;;
  Ret 0.

End combinations_of_systems.

Module symbolic_vector_system.

Definition main (argc : Z) (argv : list string) : Prog Z :=
  x <- trigger (Variable_ctor "x") ;;

  diagram_builder <- call "DiagramBuilder<double>::DiagramBuilder" [] ;;

  b <- call "SymbolicVectorSystemBuilder::SymbolicVectorSystemBuilder" [] ;;
  b <- call "SymbolicVectorSystemBuilder::state" [b; VVar x] ;;
  b <- call "SymbolicVectorSystemBuilder::dynamics"
         [b; VExpr (- x + Pow x 3)%sym] ;;
  b <- call "SymbolicVectorSystemBuilder::output" [b; VVar x] ;;
  built <- call "SymbolicVectorSystemBuilder::Build" [b] ;;
  system <- call "DiagramBuilder::AddSystem" [diagram_builder; built] ;;

  output <- call "SymbolicVectorSystem::get_output_port" [system] ;;
  logger <- call "LogVectorOutput<double>" [output; diagram_builder] ;;

  diagram <- call "DiagramBuilder::Build" [diagram_builder] ;;

  context <- call "Diagram::CreateDefaultContext" [diagram] ;;
  _ <- call "Context::SetContinuousState" [context; VVector [0.9]%float] ;;

  simulator <- call "Simulator<double>::Simulator" [diagram; context] ;;
  _ <- call "Simulator::Initialize" [simulator] ;;
  _ <- call "Simulator::AdvanceTo" [simulator; VDouble 10%float] ;;

  final <- call "Simulator::get_context" [simulator] ;;
  log <- call "VectorLogSink::FindLog" [logger; final] ;;

  _ <- call "plt::figure" [] ;;

  t <- call "VectorLog::sample_times" [log] ;;
  data <- call "VectorLog::data" [log] ;;
  _ <- call "plt::plot" [t; data; VStr "tab:red"] ;;

  _ <- call "plt::xlabel" [VStr "Sample time"] ;;
  _ <- call "plt::ylabel" [VStr "Output"] ;;
  _ <- call "plt::show" [] ;;
  Ret 0.

End symbolic_vector_system.

(** ** multibody_kinematics_and_dynamics/ *)

Module meshcat_sdf.

Definition model_inspector (meshcat : Val) (filename : string)
  : Prog unit :=
  _ <- call "Meshcat::Delete" [meshcat] ;;
  _ <- call "Meshcat::DeleteAddedControls" [meshcat] ;;
  diagram_builder <- call "DiagramBuilder<double>::DiagramBuilder" [] ;;

  added <- trigger (AddMultibodyPlantSceneGraph diagram_builder
                      0.001%float) ;;
  let plant := fst added in
  let scene_graph := snd added in

  parser <- call "Parser::Parser" [plant] ;;
  _ <- trigger (AddModelFromFile parser filename) ;;
  _ <- call "MultibodyPlant::Finalize" [plant] ;;

  visual <- call "MeshcatVisualizer<double>::AddToBuilder"
              [diagram_builder; scene_graph; meshcat;
               VEnum "Role::kPerception"; VStr "visual"] ;;
  collision <- call "MeshcatVisualizer<double>::AddToBuilder"
                 [diagram_builder; scene_graph; meshcat;
                  VEnum "Role::kProximity"; VStr "collision"] ;;
  _ <- call "Meshcat::SetProperty"
         [meshcat; VStr "collision"; VStr "visible"; VBool false] ;;

  sliders <- call "DiagramBuilder::AddSystem<JointSliders<double>>"
               [diagram_builder; meshcat; plant] ;;
  diagram <- call "DiagramBuilder::Build" [diagram_builder] ;;
  _ <- call "JointSliders::Run" [sliders; diagram] ;;
  Ret tt.

Definition main (argc : Z) (argv : list string) : Prog Z :=
  (if negb (argc =? 2) then
     _ <- trigger (Cout (PStr "Usage: ")) ;;
     program <- argv_at argv 0 ;;
     cout_cstr program ;;
     trigger (Cout (PStr (" path-to-sdf-file" ++ newline)))
   else Ret tt) ;;

  meshcat <- call "std::make_shared<Meshcat>" [VInt 8080] ;;

  path <- argv_at argv 1 ;;
  filename <- std_string path ;;
  model_inspector meshcat filename ;;
  Ret 0.

End meshcat_sdf.

(** ** The nine programs *)

Definition Main := Z -> list string -> Prog Z.

(** The program started on a command line. *)
Definition start (main : Main) (argv : list string) : Prog Z :=
  main (argc_of argv) argv.

Definition basics_cpp : string := "mathematical_program/basics.cpp".

Definition meshcat_sdf_cpp : string :=
  "multibody_kinematics_and_dynamics/meshcat_sdf.cpp".

Definition examples : list (string * Main) :=
  [ ("mathematical_program/add_callback.cpp", add_callback.main);
    (basics_cpp, fun _ _ => basics.main);
    ("mathematical_program/good_or_bad_initial_guess.cpp",
     good_or_bad_initial_guess.main);
    ("mathematical_program/manually_choosing_a_solver.cpp",
     manually_choosing_a_solver.main);
    ("mathematical_program/simple_optimization_problem_feasible.cpp",
     simple_optimization_problem_feasible.main);
    ("mathematical_program/simple_optimization_problem_infeasible.cpp",
     simple_optimization_problem_infeasible.main);
    ("modeling_dynamics_systems/combinations_of_systems.cpp",
     combinations_of_systems.main);
    ("modeling_dynamics_systems/symbolic_vector_system.cpp",
     symbolic_vector_system.main);
    (meshcat_sdf_cpp, meshcat_sdf.main) ].

(** ** A library to run the programs against

    One possible behaviour of the library, used to evaluate the programs on
    concrete inputs: objects are numbered by the call that creates them,
    decision variables are fresh, [fopen] answers from a table of files, a
    solver reports two points to the callbacks and succeeds or fails as
    told. *)

Fixpoint fill {A} (f : nat -> A) (from rows : nat) : Matrix A rows :=
  match rows with
  | O => tt
  | S n => (f from, fill f (S from) n)
  end.

Definition solve_return (n : nat) : SolveReturn :=
  {| callback_points := [[4; 5]%float; [3; 3]%float];
     result := n |}.

Definition library (files : string -> Ptr) (solved : bool) : Oracle :=
  fun n X e =>
    match e in libE X return X with
    | MathematicalProgram_ctor => n
    | NewContinuousVariables _ rows _ => fill (fun i => i) (10 * n)%nat rows
    | NewContinuousVariables_matrix _ rows cols _ =>
        fill (fun i => fill (fun j => j) (10 * n + cols * i)%nat cols) 0%nat rows
    | AddConstraint _ _ => n
    | AddCost _ _ => n
    | AddVisualizationCallback _ _ _ => n
    | Solve _ _ => solve_return n
    | IpoptSolver_ctor => n
    | IpoptSolver_Solve _ _ _ _ => solve_return n
    | is_success _ => solved
    | get_solution_result _ => if solved then 0 else 2
    | GetSolution _ x => map (fun _ => 0.5%float) (coefficients x)
    | get_optimal_cost _ => 0.5%float
    | get_solver_id _ => {| name := "IPOPT" |}
    | get_solver_details_IpoptSolver _ =>
        {| status := if solved then 0 else 2;
           ConvertStatusToString := if solved then "Success"
                                    else "Infeasible_Problem_Detected" |}
    | Cout _ => tt
    | gvContext => Some n
    | fopen filename _ => files filename
    | agread chan _ => match chan with Some _ => Some n | None => None end
    | gvLayout _ _ _ => 0
    | gvRender _ _ _ _ => 0
    | gvFreeLayout _ _ => 0
    | agclose _ => 0
    | gvFreeContext _ => 0
    | AddMultibodyPlantSceneGraph _ _ => (VObj n, VObj (S n))
    | AddModelFromFile _ _ => VObj n
    | Variable_ctor _ => n
    | Eigen_size _ => 1
    | Eigen_coeff _ _ => 0%float
    | LibCall _ _ => VObj n
    end.

(** No file can be opened. *)
Definition no_files : string -> Ptr := fun _ => None.

(** Every file can be opened. *)
Definition all_files : string -> Ptr := fun _ => Some 7%nat.

(** ** What a trace tells *)

(** The formulas handed to [AddConstraint], in order. *)
Definition constraints (t : list Event) : list Formula :=
  flat_map (fun ev =>
    match ev with
    | Ev (AddConstraint _ f) _ => [f]
    | _ => []
    end) t.

(** The expressions handed to [AddCost], in order. *)
Definition costs (t : list Event) : list Expression :=
  flat_map (fun ev =>
    match ev with
    | Ev (AddCost _ e) _ => [e]
    | _ => []
    end) t.

(** The decision variables that [NewContinuousVariables] answered. *)
Definition new_variables {X} (e : libE X) : X -> list Var :=
  match e in libE X return X -> list Var with
  | NewContinuousVariables _ _ _ => fun x => coefficients x
  | NewContinuousVariables_matrix _ _ _ _ =>
      fun m => concat (map coefficients (coefficients m))
  | _ => fun _ => []
  end.

Definition declared (t : list Event) : list Var :=
  flat_map (fun ev => match ev with Ev e x => new_variables e x end) t.

(** The objective of a program: the sum of the costs added to it. *)
Definition total_cost (env : Var -> R) (t : list Event) : R :=
  fold_right (fun e acc => (Evaluate env e + acc)%R) 0%R (costs t).

(** An assignment of the variables that satisfies every constraint. *)
Definition feasible (env : Var -> R) (t : list Event) : Prop :=
  Forall (holds env) (constraints t).

(** The files [fopen] was asked for, with the mode and the answer. *)
Definition fopen_answers (t : list Event) : list (string * string * Ptr) :=
  flat_map (fun ev =>
    match ev with
    | Ev e x =>
        match e in libE X return X -> list (string * string * Ptr) with
        | fopen filename mode => fun fp => [(filename, mode, fp)]
        | _ => fun _ => []
        end x
    end) t.

(** The [FILE*] that [agread] was given to read from. *)
Definition agread_chans (t : list Event) : list Ptr :=
  flat_map (fun ev =>
    match ev with
    | Ev (agread chan _) _ => [chan]
    | _ => []
    end) t.

(** The [FILE*] that [gvRender] was given to write to. *)
Definition gvRender_outs (t : list Event) : list Ptr :=
  flat_map (fun ev =>
    match ev with
    | Ev (gvRender _ _ _ out) _ => [out]
    | _ => []
    end) t.

(** The file names handed to [Parser::AddModelFromFile]. *)
Definition model_files (t : list Event) : list string :=
  flat_map (fun ev =>
    match ev with
    | Ev (AddModelFromFile _ file_name) _ => [file_name]
    | _ => []
    end) t.

(** A call with its arguments, without the answer. *)
Definition Call := {X : Type & libE X}.

Definition calls (t : list Event) : list Call :=
  map (fun ev => match ev with Ev e _ => existT libE _ e end) t.

(** The library [o], except that [gvFreeContext] answers [z]. *)
Definition answering_gvFreeContext (z : Z) (o : Oracle) : Oracle :=
  fun n X e =>
    match e in libE X return X -> X with
    | gvFreeContext _ => fun _ => z
    | _ => fun x => x
    end (o n X e).


(** The calls that run a solver, and what they answered. *)
Definition is_solver_call (ev : Event) : bool :=
  match ev with
  | Ev (Solve _ _) _ | Ev (IpoptSolver_Solve _ _ _ _) _ => true
  | _ => false
  end.

Definition solver_answers (t : list Event) : list SolveReturn :=
  flat_map (fun ev =>
    match ev with
    | Ev e x =>
        match e in libE X return X -> list SolveReturn with
        | Solve _ _ | IpoptSolver_Solve _ _ _ _ => fun r => [r]
        | _ => fun _ => []
        end x
    end) t.

(** The calls that read a result object, with what they answered. *)
Definition is_accessor (ev : Event) : bool :=
  match ev with
  | Ev (is_success _) _ | Ev (get_solution_result _) _
  | Ev (GetSolution _ _) _ | Ev (get_optimal_cost _) _
  | Ev (get_solver_id _) _ | Ev (get_solver_details_IpoptSolver _) _ => true
  | _ => false
  end.

Definition retrievals (t : list Event) : list Event :=
  flat_map (fun ev => if is_accessor ev then [ev] else []) t.

Definition is_cout (ev : Event) : Prop :=
  match ev with
  | Ev (Cout _) _ => True
  | _ => False
  end.

(** What follows the first solver call of a run. *)
Fixpoint after_solver (t : list Event) : list Event :=
  match t with
  | [] => []
  | ev :: t' => if is_solver_call ev then t' else after_solver t'
  end.

(** ** The order of use of the mathematical-programming API

    A run is in order when decision variables are declared before anything
    is added to the program, constraints, costs and callbacks mention only
    variables declared so far and are added before the first solver call,
    and a result is read only after a solver call has returned it. *)
Inductive Stage : Type := Declaring | Formulating | Solved.

Fixpoint in_order (stage : Stage) (known : list Var)
    (results : list MathematicalProgramResult) (t : list Event) : Prop :=
  match t with
  | [] => True
  | Ev e x :: t' =>
      match e in libE X return X -> Prop with
      | NewContinuousVariables _ _ _ =>
          fun x => stage = Declaring /\
                   in_order Declaring (known ++ coefficients x) results t'
      | NewContinuousVariables_matrix _ _ _ _ =>
          fun m => stage = Declaring /\
                   in_order Declaring
                     (known ++ concat (map coefficients (coefficients m)))
                     results t'
      | AddConstraint _ f =>
          fun _ => stage <> Solved /\ incl (free_variables f) known /\
                   in_order Formulating known results t'
      | AddCost _ c =>
          fun _ => stage <> Solved /\ incl (variables c) known /\
                   in_order Formulating known results t'
      | AddVisualizationCallback _ _ vars =>
          fun _ => stage <> Solved /\ incl (coefficients vars) known /\
                   in_order Formulating known results t'
      | Solve _ _ | IpoptSolver_Solve _ _ _ _ =>
          fun r => in_order Solved known (result r :: results) t'
      | is_success r | get_solution_result r | get_optimal_cost r
      | get_solver_id r | get_solver_details_IpoptSolver r =>
          fun _ => In r results /\ in_order stage known results t'
      | GetSolution r vars =>
          fun _ => In r results /\ incl (coefficients vars) known /\
                   in_order stage known results t'
      | _ => fun _ => in_order stage known results t'
      end x
  end.

(** A run goes through the whole cycle: it declares variables, adds a
    constraint or a cost, and calls a solver, in order. *)
Definition full_cycle (t : list Event) : Prop :=
  in_order Declaring [] [] t /\
  declared t <> [] /\
  (constraints t <> [] \/ costs t <> []) /\
  solver_answers t <> [].

Definition mathematical_program_examples : list (string * Main) :=
  firstn 6 examples.

(** ** Dependence on the command line and on the library *)

(** Two libraries run the callbacks of a program equally often: at the
    same place of the run, [drake::solvers::Solve], the only solver that an
    example calls on a program with a callback, reports equally many
    points. *)
Definition callbacks_agree (o o' : Oracle) : Prop :=
  forall n prog guess prog' guess',
    length (callback_points (o n _ (Solve prog guess)))
    = length (callback_points (o' n _ (Solve prog' guess'))).






(** What the solver call of add_callback.cpp answers under a library. *)
Definition add_callback_answer (o : Oracle) : SolveReturn :=
  o 5%nat _ (Solve (o 0%nat _ MathematicalProgram_ctor)
               (Some [4; 5]%float)).

(** The line that [main] of meshcat_sdf.cpp prints when [argc] is not 2. *)
Definition usage (program : string) : list Printable :=
  [PStr "Usage: "; PCStr program; PStr (" path-to-sdf-file" ++ newline)].

(** One round of the callback of add_callback.cpp, as the library runs
    it at a point. *)
Definition update_round (x : VectorXd) : Prog unit :=
  add_callback.update x ;; Ret tt.

(** ** The files

    What each source file includes, which functions it defines, and which
    functions it refers to by an unqualified name (calls, and [update]
    handed over as a callback).  Calls qualified by a namespace of a
    library or made on an object of a library are calls into the
    library. *)
Record SourceFile := {
  file : string;
  includes : list string;
  defines : list string;
  references : list string
}.

Definition sources : list SourceFile :=
  [ {| file := "mathematical_program/add_callback.cpp";
       includes := ["drake/solvers/mathematical_program.h";
                    "drake/solvers/solve.h"; "iostream"];
       defines := ["print"; "update"; "main"];
       references := ["print"; "pow"; "update"] |};
    {| file := basics_cpp;
       includes := ["drake/solvers/mathematical_program.h";
                    "utils/utils.h"];
       defines := ["main"];
       references := ["print"] |};
    {| file := "mathematical_program/good_or_bad_initial_guess.cpp";
       includes := ["drake/solvers/ipopt_solver.h";
                    "drake/solvers/mathematical_program.h"; "iostream"];
       defines := ["print"; "main"];
       references := ["pow"; "print"] |};
    {| file := "mathematical_program/manually_choosing_a_solver.cpp";
       includes := ["drake/solvers/ipopt_solver.h";
                    "drake/solvers/mathematical_program.h"; "iostream"];
       defines := ["print"; "main"];
       references := ["print"] |};
    {| file := "mathematical_program/simple_optimization_problem_feasible.cpp";
       includes := ["drake/solvers/mathematical_program.h";
                    "drake/solvers/solve.h"; "iostream"];
       defines := ["print"; "main"];
       references := ["print"; "pow"] |};
    {| file :=
         "mathematical_program/simple_optimization_problem_infeasible.cpp";
       includes := ["drake/solvers/mathematical_program.h";
                    "drake/solvers/solve.h"; "iostream"];
       defines := ["print"; "main"];
       references := ["print"] |};
    {| file := "modeling_dynamics_systems/combinations_of_systems.cpp";
       includes := ["drake/common/eigen_types.h";
                    "drake/examples/pendulum/pendulum_plant.h";
                    "drake/systems/analysis/simulator.h";
                    "drake/systems/controllers/pid_controller.h";
                    "drake/systems/framework/diagram_builder.h";
                    "drake/systems/primitives/symbolic_vector_system.h";
                    "drake/systems/primitives/vector_log_sink.h";
                    "matplotlibcpp.h"; "graphviz/gvc.h"; "fstream"];
       defines := ["createPNGFromDotFile"; "main"];
       references := ["gvContext"; "fopen"; "agread"; "gvLayout"; "gvRender";
                      "gvFreeLayout"; "agclose"; "gvFreeContext";
                      "createPNGFromDotFile"] |};
    {| file := "modeling_dynamics_systems/symbolic_vector_system.cpp";
       includes := ["drake/common/eigen_types.h";
                    "drake/common/symbolic/expression.h";
                    "drake/systems/analysis/simulator.h";
                    "drake/systems/framework/diagram_builder.h";
                    "drake/systems/primitives/symbolic_vector_system.h";
                    "drake/systems/primitives/vector_log_sink.h";
                    "matplotlibcpp.h"];
       defines := ["main"];
       references := ["pow"] |};
    {| file := meshcat_sdf_cpp;
       includes := ["drake/geometry/meshcat.h";
                    "drake/geometry/meshcat_visualizer.h";
                    "drake/multibody/plant/multibody_plant.h";
                    "drake/systems/framework/diagram_builder.h";
                    "drake/multibody/meshcat/joint_sliders.h";
                    "drake/multibody/parsing/parser.h";
                    "chrono"; "iostream"; "thread"];
       defines := ["main"; "model_inspector"];
       references := ["model_inspector"] |} ].



Definition mentions (names : list string) (name : string) : bool :=
  existsb (String.eqb name) names.




(** The files that refer to a function. *)
Definition callers (function : string) : list string :=
  map file (filter (fun f => mentions (references f) function) sources).


Ltac in_order_steps :=
  cbn;
  repeat match goal with
         | |- _ /\ _ => split
         | |- True => exact I
         | |- _ = _ => reflexivity
         | |- _ <> _ => discriminate
         | |- incl _ _ => intros v Hv; cbn in Hv |- *; tauto
         | |- In _ _ => cbn; tauto
         | |- _ \/ _ => left; reflexivity
         end.

(** ** Further observations of a run *)

(** The copies of [print] that the files define for themselves. *)
Definition local_prints : list (list Printable -> Prog unit) :=
  [ add_callback.print;
    good_or_bad_initial_guess.print;
    manually_choosing_a_solver.print;
    simple_optimization_problem_feasible.print;
    simple_optimization_problem_infeasible.print ].

(** The arguments, and the answers, of the calls of a library method that
    is entered through [LibCall]. *)
Definition libcall_args (function : string) (t : list Event)
  : list (list Val) :=
  flat_map (fun ev =>
    match ev with
    | Ev (LibCall f args) _ => if String.eqb f function then [args] else []
    | _ => []
    end) t.

Definition libcall_answers (function : string) (t : list Event) : list Val :=
  flat_map (fun ev =>
    match ev with
    | Ev e x =>
        match e in libE X return X -> list Val with
        | LibCall f _ => fun v => if String.eqb f function then [v] else []
        | _ => fun _ => []
        end x
    end) t.

(** The builders given to [AddMultibodyPlantSceneGraph], each with the
    plant and the scene graph answered. *)
Definition plants_added (t : list Event) : list (Val * (Val * Val)) :=
  flat_map (fun ev =>
    match ev with
    | Ev e x =>
        match e in libE X return X -> list (Val * (Val * Val)) with
        | AddMultibodyPlantSceneGraph builder _ => fun a => [(builder, a)]
        | _ => fun _ => []
        end x
    end) t.

(** The parsers that [AddModelFromFile] was called on. *)
Definition model_parsers (t : list Event) : list Val :=
  flat_map (fun ev =>
    match ev with
    | Ev (AddModelFromFile parser _) _ => [parser]
    | _ => []
    end) t.

(** What [gvContext] and [agread] answered. *)
Definition gvContext_answers (t : list Event) : list Ptr :=
  flat_map (fun ev =>
    match ev with
    | Ev e x =>
        match e in libE X return X -> list Ptr with
        | gvContext => fun gvc => [gvc]
        | _ => fun _ => []
        end x
    end) t.

Definition agread_answers (t : list Event) : list Ptr :=
  flat_map (fun ev =>
    match ev with
    | Ev e x =>
        match e in libE X return X -> list Ptr with
        | agread _ _ => fun g => [g]
        | _ => fun _ => []
        end x
    end) t.

(** The graphviz contexts, and the graphs, that the graphviz calls were
    given, with the name of the call. *)
Definition gvc_uses (t : list Event) : list (string * Ptr) :=
  flat_map (fun ev =>
    match ev with
    | Ev (gvLayout gvc _ _) _ => [("gvLayout", gvc)]
    | Ev (gvRender gvc _ _ _) _ => [("gvRender", gvc)]
    | Ev (gvFreeLayout gvc _) _ => [("gvFreeLayout", gvc)]
    | Ev (gvFreeContext gvc) _ => [("gvFreeContext", gvc)]
    | _ => []
    end) t.

Definition graph_uses (t : list Event) : list (string * Ptr) :=
  flat_map (fun ev =>
    match ev with
    | Ev (gvLayout _ g _) _ => [("gvLayout", g)]
    | Ev (gvRender _ g _ _) _ => [("gvRender", g)]
    | Ev (gvFreeLayout _ g) _ => [("gvFreeLayout", g)]
    | Ev (agclose g) _ => [("agclose", g)]
    | _ => []
    end) t.

(** The calls that touch a file: the [std::ofstream] methods and
    [fopen]. *)
Definition file_functions : list string :=
  [ "std::ofstream::ofstream"; "std::ofstream::operator<<";
    "std::ofstream::close"; "fopen" ].

(** The coefficients asked of Eigen vectors: the vector and the index. *)
Definition coeff_reads (t : list Event) : list (Val * Z) :=
  flat_map (fun ev =>
    match ev with
    | Ev (Eigen_coeff v i) _ => [(v, i)]
    | _ => []
    end) t.

(** The library [o], except that [size()] of an Eigen vector answers
    [z]. *)
Definition answering_Eigen_size (z : Z) (o : Oracle) : Oracle :=
  fun n X e =>
    match e in libE X return X -> X with
    | Eigen_size _ => fun _ => z
    | _ => fun x => x
    end (o n X e).

(** The variables and the expressions among a list of arguments. *)
Definition variables_among (args : list Val) : list Var :=
  flat_map (fun v => match v with VVar x => [x] | _ => [] end) args.

Definition expressions_among (args : list Val) : list Expression :=
  flat_map (fun v => match v with VExpr e => [e] | _ => [] end) args.

(** The state, the dynamics and the output given to a
    [SymbolicVectorSystemBuilder]: what follows the builder itself among
    the arguments of the method. *)
Definition state_variables (t : list Event) : list Var :=
  flat_map (fun args => variables_among (tl args))
    (libcall_args "SymbolicVectorSystemBuilder::state" t).

Definition dynamics (t : list Event) : list Expression :=
  flat_map (fun args => expressions_among (tl args))
    (libcall_args "SymbolicVectorSystemBuilder::dynamics" t).

Definition output_variables (t : list Event) : list Var :=
  flat_map (fun args => variables_among (tl args))
    (libcall_args "SymbolicVectorSystemBuilder::output" t).

(** The vectors among a list of arguments. *)
Definition vectors_among (args : list Val) : list VectorXd :=
  flat_map (fun v => match v with VVector x => [x] | _ => [] end) args.

(** The initial states given to [Context::SetContinuousState]. *)
Definition initial_states (t : list Event) : list VectorXd :=
  flat_map (fun args => vectors_among (tl args))
    (libcall_args "Context::SetContinuousState" t).

(** The solver calls of a run: the program solved and the initial guess,
    and for [IpoptSolver::Solve] the solver object. *)
Definition solver_calls (t : list Event)
  : list (option Handle * Handle * option VectorXd) :=
  flat_map (fun ev =>
    match ev with
    | Ev (Solve prog guess) _ => [(None, prog, guess)]
    | Ev (IpoptSolver_Solve solver prog guess _) _ =>
        [(Some solver, prog, guess)]
    | _ => []
    end) t.

Definition initial_guesses (t : list Event) : list VectorXd :=
  flat_map (fun c => match snd c with Some x => [x] | None => [] end)
    (solver_calls t).

(** The programs that call a solver. *)
Definition solver_examples : list Main :=
  [ add_callback.main;
    good_or_bad_initial_guess.main;
    manually_choosing_a_solver.main;
    simple_optimization_problem_feasible.main;
    simple_optimization_problem_infeasible.main ].

(** Runs a program symbolically, leaving the answers of the library
    uninterpreted. *)
Ltac run_program := cbv.

(** * Properties *)

(** ** Running a sequence *)



Section Sequencing.

Variable o : Oracle.

Lemma trace_from_bind {A B} (p : Prog A) (k : A -> Prog B) :
  forall n,
    trace_from o n (bind p k)
    = (trace_from o n p ++
       match outcome_from o n p with
       | Returned a => trace_from o (n + length (trace_from o n p)) (k a)
       | Crashed _ => []
       end)%list.
Proof.
  induction p as [a | X e k' IH | ub]; intros n; cbn.
  - now rewrite Nat.add_0_r.
  - f_equal. rewrite IH. now rewrite Nat.add_succ_r.
  - reflexivity.
Qed.

Lemma outcome_from_bind {A B} (p : Prog A) (k : A -> Prog B) :
  forall n,
    outcome_from o n (bind p k)
    = match outcome_from o n p with
      | Returned a => outcome_from o (n + length (trace_from o n p)) (k a)
      | Crashed ub => Crashed ub
      end.
Proof.
  induction p as [a | X e k' IH | ub]; intros n; cbn.
  - now rewrite Nat.add_0_r.
  - rewrite IH. now rewrite Nat.add_succ_r.
  - reflexivity.
Qed.

(** A loop whose body always returns, returns. *)
Lemma for_each_returns {A} (body : A -> Prog unit) (l : list A) :
  (forall a n, outcome_from o n (body a) = Returned tt) ->
  forall n, outcome_from o n (for_each l body) = Returned tt.
Proof.
  intros Hbody. induction l as [| a l IH]; intros n; cbn.
  - reflexivity.
  - rewrite outcome_from_bind, Hbody. apply IH.
Qed.


Lemma for_each_Forall {A} (P : Event -> Prop) (body : A -> Prog unit)
    (l : list A) :
  (forall a n, outcome_from o n (body a) = Returned tt) ->
  (forall a n, Forall P (trace_from o n (body a))) ->
  forall n, Forall P (trace_from o n (for_each l body)).
Proof.
  intros Hret HP. induction l as [| a l IH]; intros n; cbn.
  - constructor.
  - rewrite trace_from_bind, Hret. apply Forall_app.
    split; [apply HP | apply IH].
Qed.


End Sequencing.

(** Printing does not take part in the order of use of the API. *)
Lemma in_order_cout (t : list Event) :
  Forall is_cout t ->
  forall stage known results, in_order stage known results t.
Proof.
  induction 1 as [| ev t Hev _ IH]; intros stage known results.
  - exact I.
  - destruct ev as [X e x]. destruct e; try contradiction. cbn. apply IH.
Qed.

(** The sample libraries run callbacks equally often. *)
Example library_callbacks_agree :
  callbacks_agree (library all_files true) (library no_files false).
Proof. intros n prog guess prog' guess'. reflexivity. Qed.

(** ** The optimization problems that the examples build *)

Section Problems.

Variable o : Oracle.
Variable argc : Z.
Variable argv : list string.

(** The infeasible example hands the library [x + y >= 1] and
    [x + y <= 0] over the two variables it was given. *)
Lemma infeasible_constraints :
  exists x y : Var,
    constraints
      (trace o (simple_optimization_problem_infeasible.main argc argv))
    = [ (x + y >= #1)%sym; (x + y <= #0)%sym ].
Proof.
  eexists; eexists. run_program. reflexivity.
Qed.

(** The feasible example hands the library [x0 + x1 == 1], [x0 <= x1]
    and the cost [x0^2 + x1^2] over the vector it was given. *)
Lemma feasible_problem :
  exists x : VectorDecisionVariable 2,
    let t := trace o (simple_optimization_problem_feasible.main argc argv) in
    declared t = [ x[0]; x[1] ] /\
    constraints t = [ (x[0] + x[1] == #1)%sym; (x[0] <= x[1])%sym ] /\
    costs t = [ (Pow x[0] 2 + Pow x[1] 2)%sym ].
Proof.
  eexists. run_program. repeat split.
Qed.

End Problems.

(** C8. The constraints that the infeasible example adds, [x + y >= 1] and
    [x + y <= 0], hold together at no real point: whatever variables the
    library hands out, the program built has no feasible point. *)
Theorem infeasible_example_has_no_feasible_point :
  forall (o : Oracle) (argc : Z) (argv : list string) (env : Var -> R),
    ~ feasible env
        (trace o (simple_optimization_problem_infeasible.main argc argv)).
Proof.
  intros o argc argv env H.
  destruct (infeasible_constraints o argc argv) as (x & y & E).
  unfold feasible in H. rewrite E in H.
  inversion_clear H as [| ? ? Hge Hrest].
  inversion_clear Hrest as [| ? ? Hle _].
  cbn in Hge, Hle. lra.
Qed.

(** C9. In the feasible example, every point that satisfies the two
    constraints [x0 + x1 = 1] and [x0 <= x1] costs at least 1/2, and it
    costs exactly 1/2 if and only if both variables are 1/2. *)
Theorem feasible_example_optimum :
  forall (o : Oracle) (argc : Z) (argv : list string) (env : Var -> R),
    let t := trace o (simple_optimization_problem_feasible.main argc argv) in
    feasible env t ->
    (total_cost env t >= 1 / 2)%R /\
    (total_cost env t = (1 / 2)%R <->
     Forall (fun v => env v = (1 / 2)%R) (declared t)).
Proof.
  intros o argc argv env t.
  destruct (feasible_problem o argc argv) as (x & Hd & Hc & Hk).
  fold t in Hd, Hc, Hk.
  unfold feasible, total_cost. rewrite Hd, Hc, Hk.
  rewrite !Forall_cons_iff. cbn.
  generalize (env x[0]) (env x[1]). intros a b (Heq & Hle & _).
  assert (Hb : b = (1 - a)%R) by lra. subst b.
  repeat split.
  - nra.
  - nra.
  - nra.
  - constructor.
  - intros (Ha & _). rewrite Ha. lra.
Qed.

(** The point (1/2, 1/2) is feasible for the feasible example run against
    the sample library, and there the bound of C9 is attained. *)
Lemma feasible_example_optimum_witness :
  let t := trace (library all_files true)
             (start simple_optimization_problem_feasible.main []) in
  feasible (fun _ => (1 / 2)%R) t /\
  ((total_cost (fun _ => (1 / 2)%R) t >= 1 / 2)%R /\
   (total_cost (fun _ => (1 / 2)%R) t = (1 / 2)%R <->
    Forall (fun v => (1 / 2)%R = (1 / 2)%R) (declared t))).
Proof.
  assert (F : feasible (fun _ => (1 / 2)%R)
                (trace (library all_files true)
                   (start simple_optimization_problem_feasible.main []))).
  { repeat constructor; cbn; lra. }
  split; [exact F |].
  exact (feasible_example_optimum (library all_files true) 0 []
           (fun _ => (1 / 2)%R) F).
Defined.

(** ** The graph rendering of combinations_of_systems.cpp *)

(** With no file to open, [createPNGFromDotFile] still makes all its nine
    calls and hands the null pointers to [agread] and [gvRender]. *)
Example createPNGFromDotFile_without_files :
  let t := trace (library no_files true)
             (combinations_of_systems.createPNGFromDotFile "graph") in
  fopen_answers t = [("graph.dot", "r", None); ("graph.png", "w", None)] /\
  agread_chans t = [None] /\
  gvRender_outs t = [None] /\
  length t = 9%nat.
Proof. repeat split. Qed.

(** C10. [createPNGFromDotFile] opens the ".dot" file for reading and the
    ".png" file for writing and gives whatever [fopen] answered, null or
    not, to [agread] and to [gvRender]; it makes the same nine calls
    whatever the library answers and always returns; it is called from
    combinations_of_systems.cpp only, and [main] there goes on in the same
    way whatever [createPNGFromDotFile] returns. *)
Theorem createPNGFromDotFile_unchecked :
  forall (o : Oracle) (dot_file_name : string),
    let p := combinations_of_systems.createPNGFromDotFile dot_file_name in
    (exists fp png : Ptr,
        fopen_answers (trace o p)
        = [ (dot_file_name ++ ".dot", "r", fp);
            (dot_file_name ++ ".png", "w", png) ] /\
        agread_chans (trace o p) = [fp] /\
        gvRender_outs (trace o p) = [png]) /\
    shape o p
    = [ "gvContext"; "fopen"; "agread"; "gvLayout"; "fopen"; "gvRender";
        "gvFreeLayout"; "agclose"; "gvFreeContext" ] /\
    (exists freed : bool, outcome o p = Returned freed) /\
    callers "createPNGFromDotFile"
    = ["modeling_dynamics_systems/combinations_of_systems.cpp"] /\
    (forall (z : Z) (argc : Z) (argv : list string),
        calls (trace (answering_gvFreeContext z o)
                 (combinations_of_systems.main argc argv))
        = calls (trace o (combinations_of_systems.main argc argv)) /\
        outcome (answering_gvFreeContext z o)
          (combinations_of_systems.main argc argv)
        = outcome o (combinations_of_systems.main argc argv)).
Proof.
  intros o dot_file_name p. subst p.
  split; [| split; [| split; [| split]]].
  - eexists; eexists. repeat split.
  - reflexivity.
  - eexists. reflexivity.
  - reflexivity.
  - intros z argc argv. split; reflexivity.
Qed.

(** ** add_callback.cpp

    The run of [main] is the six calls up to the solver call, followed by
    the rounds of [update] that the library runs while it solves. *)

Section AddCallback.

Variable o : Oracle.

Lemma update_round_returns x n :
  outcome_from o n (update_round x) = Returned tt.
Proof. reflexivity. Qed.



Lemma update_rounds_print n points :
  Forall is_cout (trace_from o n (for_each points update_round)).
Proof.
  apply for_each_Forall.
  - intros; reflexivity.
  - intros a m. repeat constructor.
Qed.

Variables (argc : Z) (argv : list string).

Lemma add_callback_outcome :
  outcome o (add_callback.main argc argv) = Returned 0.
Proof.
  unfold outcome, add_callback.main, solving, at_each_point, trigger.
  cbn [bind outcome_from].
  rewrite !outcome_from_bind.
  now rewrite (for_each_returns o _ _ update_round_returns).
Qed.





Lemma add_callback_full_cycle :
  full_cycle (trace o (add_callback.main argc argv)).
Proof.
  unfold full_cycle, trace, add_callback.main, solving, at_each_point, trigger.
  cbn [bind trace_from].
  split; [| split; [| split]].
  - in_order_steps.
    rewrite !trace_from_bind, !outcome_from_bind.
    rewrite (for_each_returns o _ _ update_round_returns).
    cbn [trace_from]. rewrite !app_nil_r.
    apply in_order_cout, update_rounds_print.
  - discriminate.
  - left. discriminate.
  - discriminate.
Qed.

End AddCallback.


(** ** meshcat_sdf.cpp *)

(** With a second entry in [argv], whatever [argc] says: the path reaches
    the parser as it is, [main] returns 0, and the usage line is printed
    exactly when [argc] is not 2. *)
Lemma meshcat_sdf_with_path o argc name path rest :
  let argv := name :: path :: rest in
  model_files (trace o (meshcat_sdf.main argc argv)) = [path] /\
  outcome o (meshcat_sdf.main argc argv) = Returned 0 /\
  printed (trace o (meshcat_sdf.main argc argv))
  = (if argc =? 2 then [] else usage name) /\
  shape o (meshcat_sdf.main argc argv)
  = ((if argc =? 2 then [] else ["std::cout<<"; "std::cout<<"; "std::cout<<"])
     ++ shape o (meshcat_sdf.main 2 argv))%list.
Proof.
  intros argv. subst argv. unfold meshcat_sdf.main.
  destruct (argc =? 2); repeat split; reflexivity.
Qed.

(** Without a second entry in [argv], no file name reaches the parser and
    [main] does not return. *)
Lemma meshcat_sdf_without_path o argc argv :
  nth_error argv 1 = None ->
  model_files (trace o (meshcat_sdf.main argc argv)) = [] /\
  exists ub, outcome o (meshcat_sdf.main argc argv) = Crashed ub.
Proof.
  destruct argv as [| name [| path rest]]; [| | discriminate];
    intros _; unfold meshcat_sdf.main;
    destruct (argc =? 2); split; try reflexivity; eexists; reflexivity.
Qed.


(** C1. The file name that [main] of meshcat_sdf.cpp forwards is not valid
    on every command line: started without an argument, the program prints
    its usage line, goes on, and builds the [std::string] for
    [model_inspector] from the null pointer [argv[1]]; no file name
    reaches [AddModelFromFile]. *)
Theorem meshcat_sdf_forwards_null_path :
  forall o : Oracle,
    let p := start meshcat_sdf.main ["meshcat_sdf"] in
    printed (trace o p) = usage "meshcat_sdf" /\
    shape o p
    = ["std::cout<<"; "std::cout<<"; "std::cout<<";
       "std::make_shared<Meshcat>"] /\
    model_files (trace o p) = [] /\
    outcome o p = Crashed string_from_null.
Proof.
  intros o p. subst p. unfold start, argc_of.
  split; [reflexivity |]. split; [reflexivity |].
  split; reflexivity.
Qed.

(** C2. Whatever the library answers, eight of the nine programs make
    their calls and return 0, and so does meshcat_sdf.cpp when [argv] has
    a second entry; started without an argument, meshcat_sdf.cpp does not
    return. *)
Theorem examples_return_unless_model_path_missing :
  forall (o : Oracle) (argc : Z) (argv : list string),
    (outcome o (add_callback.main argc argv) = Returned 0 /\
     outcome o basics.main = Returned 0 /\
     outcome o (good_or_bad_initial_guess.main argc argv) = Returned 0 /\
     outcome o (manually_choosing_a_solver.main argc argv) = Returned 0 /\
     outcome o (simple_optimization_problem_feasible.main argc argv)
     = Returned 0 /\
     outcome o (simple_optimization_problem_infeasible.main argc argv)
     = Returned 0 /\
     outcome o (combinations_of_systems.main argc argv) = Returned 0 /\
     outcome o (symbolic_vector_system.main argc argv) = Returned 0) /\
    (forall name path rest,
        outcome o (meshcat_sdf.main argc (name :: path :: rest))
        = Returned 0) /\
    outcome o (start meshcat_sdf.main ["meshcat_sdf"])
    = Crashed string_from_null.
Proof.
  intros o argc argv. split; [| split].
  - split; [apply add_callback_outcome |]. repeat split.
  - intros name path rest.
    apply (meshcat_sdf_with_path o argc name path rest).
  - reflexivity.
Qed.



(** ** Failure handling *)



(** ** The order of use of the mathematical-programming API *)

(** C6 as stated fails: basics.cpp declares variables and prints them, and
    never calls a solver. *)
Lemma basics_calls_no_solver :
  ~ Forall (fun example : string * Main =>
              forall o argc argv,
                full_cycle (trace o (snd example argc argv)))
      mathematical_program_examples.
Proof.
  intros H. apply Forall_inv_tail, Forall_inv in H.
  destruct (H (library all_files true) 1 ["basics"])
    as (_ & _ & _ & Hsolved).
  apply Hsolved. reflexivity.
Qed.

(** C6, amended. Five of the six mathematical-program examples declare
    decision variables, then add constraints and costs over declared
    variables only, then call a solver, and read a result only after a
    solver call has returned it.  basics.cpp only declares variables: it
    adds nothing, calls no solver and reads no result. *)
Theorem mathematical_programs_use_the_api_in_order :
  Forall (fun example : string * Main =>
            forall o argc argv,
              let t := trace o (snd example argc argv) in
              if String.eqb (fst example) basics_cpp
              then in_order Declaring [] [] t /\
                   declared t <> [] /\
                   constraints t = [] /\ costs t = [] /\
                   solver_answers t = [] /\ retrievals t = []
              else full_cycle t)
         mathematical_program_examples.
Proof.
  apply Forall_cons; [intros o argc argv; apply add_callback_full_cycle |].
  repeat (apply Forall_cons;
          [ intros o argc argv;
            cbn [fst snd String.eqb Ascii.eqb Bool.eqb basics_cpp];
            unfold full_cycle;
            repeat match goal with
                   | |- _ /\ _ => split
                   | |- in_order _ _ _ _ => solve [in_order_steps]
                   | |- _ \/ _ => left
                   | |- _ <> _ => discriminate
                   | |- _ = _ => reflexivity
                   end
          | ]).
  apply Forall_nil.
Qed.

(** ** Reporting of solver results *)


(** The infeasible example against a library whose solver fails: the
    failure shows as [false] and as the library's status, and the exit
    code is 0. *)
Example infeasible_example_reports_failure :
  let p := start simple_optimization_problem_infeasible.main ["infeasible"] in
  printed (after_solver (trace (library all_files false) p))
  = [ PStr "Success: "; PBool false; PStr separator;
      PStr "Solution result: "; PSolutionResult 2; PStr separator ] /\
  outcome (library all_files false) p = Returned 0.
Proof. split; reflexivity. Qed.

(** ** The files and their entry points *)

(** The files of the manifest are the nine programs, in the same order. *)
Lemma sources_are_the_examples : map file sources = map fst examples.
Proof. reflexivity. Qed.



(** * Further properties of the code *)

(** ** [print] *)

(** One copy of [print], run from any place of a run. *)
Lemma print_run (o : Oracle) (value : list Printable) :
  forall n,
    let p := simple_optimization_problem_feasible.print value in
    printed (trace_from o n p) = (value ++ [PStr separator])%list /\
    length (trace_from o n p) = S (length value) /\
    Forall is_cout (trace_from o n p) /\
    outcome_from o n p = Returned tt.
Proof.
  unfold simple_optimization_problem_feasible.print.
  induction value as [| v value IH]; intros n.
  - cbn. repeat split; repeat constructor.
    now destruct (o n unit _).
  - destruct (IH (S n)) as (Hp & Hl & Hc & Ho).
    cbn [for_each bind trigger trace_from outcome_from printed flat_map
         app length] in *.
    repeat split.
    + cbn. f_equal. exact Hp.
    + now rewrite Hl.
    + constructor; [exact I | exact Hc].
    + exact Ho.
Qed.

(** X1. Every copy of [print] writes its values to [std::cout] in the
    order given and then the separator, and nothing else: one write more
    than there are values, also for no value at all; and it returns. *)
Theorem print_writes_values_then_separator :
  Forall (fun print : list Printable -> Prog unit =>
            forall (o : Oracle) (n : nat) (value : list Printable),
              printed (trace_from o n (print value))
              = (value ++ [PStr separator])%list /\
              length (trace_from o n (print value)) = S (length value) /\
              Forall is_cout (trace_from o n (print value)) /\
              outcome_from o n (print value) = Returned tt)
         local_prints.
Proof.
  repeat (apply Forall_cons;
          [intros o n value; exact (print_run o value n) |]).
  apply Forall_nil.
Qed.

(** ** meshcat_sdf.cpp *)



(** X3. [model_inspector] works on one builder and one plant: the plant
    and the scene graph that [AddMultibodyPlantSceneGraph] answers for its
    builder are the ones given to the parser, to [Finalize], to both
    visualizers and to the joint sliders; the file is loaded through the
    parser made for that plant, before the plant is finalized; the
    collision geometry is hidden; and the thirteen calls are made in the
    same order whatever the library answers. *)
Theorem model_inspector_builds_on_one_plant :
  forall (o : Oracle) (n : nat) (meshcat : Val) (filename : string),
    let t := trace_from o n (meshcat_sdf.model_inspector meshcat filename) in
    exists builder plant scene_graph parser : Val,
      libcall_answers "DiagramBuilder<double>::DiagramBuilder" t = [builder] /\
      plants_added t = [(builder, (plant, scene_graph))] /\
      libcall_args "Parser::Parser" t = [[plant]] /\
      libcall_answers "Parser::Parser" t = [parser] /\
      model_parsers t = [parser] /\
      model_files t = [filename] /\
      libcall_args "MultibodyPlant::Finalize" t = [[plant]] /\
      libcall_args "MeshcatVisualizer<double>::AddToBuilder" t
      = [ [builder; scene_graph; meshcat; VEnum "Role::kPerception";
           VStr "visual"];
          [builder; scene_graph; meshcat; VEnum "Role::kProximity";
           VStr "collision"] ] /\
      libcall_args "Meshcat::SetProperty" t
      = [ [meshcat; VStr "collision"; VStr "visible"; VBool false] ] /\
      libcall_args "DiagramBuilder::AddSystem<JointSliders<double>>" t
      = [ [builder; meshcat; plant] ] /\
      map event_name t
      = [ "Meshcat::Delete"; "Meshcat::DeleteAddedControls";
          "DiagramBuilder<double>::DiagramBuilder";
          "AddMultibodyPlantSceneGraph"; "Parser::Parser";
          "Parser::AddModelFromFile"; "MultibodyPlant::Finalize";
          "MeshcatVisualizer<double>::AddToBuilder";
          "MeshcatVisualizer<double>::AddToBuilder"; "Meshcat::SetProperty";
          "DiagramBuilder::AddSystem<JointSliders<double>>";
          "DiagramBuilder::Build"; "JointSliders::Run" ] /\
      outcome_from o n (meshcat_sdf.model_inspector meshcat filename)
      = Returned tt.
Proof.
  intros o n meshcat filename t. subst t.
  do 4 eexists. cbn.
  repeat split; try reflexivity.
  now destruct (o (S (S (S n))) _ _).
Qed.

(** ** combinations_of_systems.cpp *)

(** X4. [createPNGFromDotFile] gives the context that [gvContext]
    answered to every later graphviz call and the graph that [agread]
    answered to layout, rendering, [gvFreeLayout] and [agclose], null or
    not; and it returns true exactly when [gvFreeContext] answers a
    non-zero value. *)
Theorem createPNGFromDotFile_uses_and_releases_its_handles :
  forall (o : Oracle) (n : nat) (dot_file_name : string),
    let p := combinations_of_systems.createPNGFromDotFile dot_file_name in
    (exists gvc g : Ptr,
        gvContext_answers (trace_from o n p) = [gvc] /\
        agread_answers (trace_from o n p) = [g] /\
        gvc_uses (trace_from o n p)
        = [ ("gvLayout", gvc); ("gvRender", gvc); ("gvFreeLayout", gvc);
            ("gvFreeContext", gvc) ] /\
        graph_uses (trace_from o n p)
        = [ ("gvLayout", g); ("gvRender", g); ("gvFreeLayout", g);
            ("agclose", g) ]) /\
    (forall z : Z,
        outcome_from (answering_gvFreeContext z o) n p
        = Returned (negb (z =? 0))).
Proof.
  intros o n dot_file_name p. subst p. split.
  - do 2 eexists. repeat split.
  - intros z. reflexivity.
Qed.

(** X5. [main] of combinations_of_systems.cpp writes the graphviz text
    of the diagram it built to "graph.dot" and closes that stream before
    [createPNGFromDotFile] opens "graph.dot" for reading and "graph.png"
    for writing; these are its only file accesses. *)
Theorem graph_is_written_and_closed_before_it_is_read :
  forall (o : Oracle) (argc : Z) (argv : list string),
    let t := trace o (combinations_of_systems.main argc argv) in
    exists diagram out text : Val,
      libcall_answers "DiagramBuilder::Build" t = [diagram] /\
      libcall_args "std::ofstream::ofstream" t = [[VStr "graph.dot"]] /\
      libcall_answers "std::ofstream::ofstream" t = [out] /\
      libcall_args "Diagram::GetGraphvizString" t = [[diagram; VInt 2]] /\
      libcall_answers "Diagram::GetGraphvizString" t = [text] /\
      libcall_args "std::ofstream::operator<<" t = [[out; text]] /\
      libcall_args "std::ofstream::close" t = [[out]] /\
      filter (mentions file_functions) (map event_name t)
      = [ "std::ofstream::ofstream"; "std::ofstream::operator<<";
          "std::ofstream::close"; "fopen"; "fopen" ] /\
      map fst (fopen_answers t)
      = [ ("graph.dot", "r"); ("graph.png", "w") ].
Proof.
  intros o argc argv t. subst t.
  do 3 eexists. repeat split.
Qed.

(** X6. The second plot asks the sample times for their first entry and
    for the entry at index [size - 1], whatever size the library reports:
    with an empty log it asks for index -1.  The size changes nothing else
    in the run. *)
Theorem plot_asks_for_first_and_last_sample :
  forall (o : Oracle) (size : Z) (argc : Z) (argv : list string),
    let p := combinations_of_systems.main argc argv in
    let o' := answering_Eigen_size size o in
    (exists times : Val,
        libcall_answers "VectorLog::sample_times" (trace o' p) = [times] /\
        coeff_reads (trace o' p) = [(times, 0); (times, size - 1)]) /\
    shape o' p = shape o p /\
    outcome o' p = Returned 0.
Proof.
  intros o size argc argv p o'. subst p o'.
  split; [eexists; split; reflexivity |]. split; reflexivity.
Qed.

(** ** The optimization problems of the other examples *)

(** Writing to [std::cout] declares, adds and solves nothing. *)
Lemma cout_only_run (t : list Event) :
  Forall is_cout t ->
  declared t = [] /\ constraints t = [] /\ costs t = [] /\
  solver_calls t = [].
Proof.
  induction 1 as [| ev t Hev _ (Hd & Hc & Hk & Hs)]; [repeat split |].
  destruct ev as [X e x]. destruct e; try contradiction.
  cbn. repeat split; assumption.
Qed.

(** The run of add_callback.cpp: six calls, then only writes to
    [std::cout]. *)
Lemma add_callback_trace_tail (o : Oracle) (argc : Z) (argv : list string) :
  exists tail,
    trace o (add_callback.main argc argv)
    = (firstn 6 (trace o (add_callback.main argc argv)) ++ tail)%list /\
    Forall is_cout tail.
Proof.
  exists (trace_from o 6
            (for_each (callback_points (add_callback_answer o)) update_round)).
  split; [| apply update_rounds_print].
  unfold trace, add_callback.main, solving, at_each_point, trigger.
  cbn [bind trace_from firstn].
  rewrite !trace_from_bind, !outcome_from_bind.
  rewrite (for_each_returns o _ _ (update_round_returns o)).
  cbn [trace_from app]. now rewrite !app_nil_r.
Qed.

Section MoreProblems.

Variable o : Oracle.
Variable argc : Z.
Variable argv : list string.

(** What manually_choosing_a_solver.cpp hands to the library. *)
Lemma manually_choosing_a_solver_problem :
  exists x : VectorDecisionVariable 2,
    let t := trace o (manually_choosing_a_solver.main argc argv) in
    declared t = [ x[0]; x[1] ] /\
    constraints t
    = [ (x[0] + x[1] == #1)%sym; (#0 <= x[1])%sym; (x[1] <= #1)%sym ] /\
    costs t = [ EVar x[0] ].
Proof. eexists. run_program. repeat split. Qed.

(** What good_or_bad_initial_guess.cpp hands to the library. *)
Lemma good_or_bad_initial_guess_problem :
  exists x : VectorDecisionVariable 2,
    let t := trace o (good_or_bad_initial_guess.main argc argv) in
    declared t = [ x[0]; x[1] ] /\
    constraints t = [ (Pow x[0] 2 + Pow x[1] 2 == #100)%sym ] /\
    costs t = [ (Pow x[0] 2 - Pow x[1] 2)%sym ].
Proof. eexists. run_program. repeat split. Qed.

End MoreProblems.

(** What add_callback.cpp hands to the library. *)
Lemma add_callback_problem (o : Oracle) (argc : Z) (argv : list string) :
  exists x : VectorDecisionVariable 2,
    let t := trace o (add_callback.main argc argv) in
    declared t = [ x[0]; x[1] ] /\
    constraints t = [ (x[0] * x[1] == #9)%sym ] /\
    costs t = [ (Pow x[0] 2 + Pow x[1] 2)%sym ] /\
    solver_calls t
    = [ (None, o 0%nat _ MathematicalProgram_ctor, Some [4; 5]%float) ].
Proof.
  destruct (add_callback_trace_tail o argc argv) as (tail & Ht & Hcout).
  destruct (cout_only_run tail Hcout) as (Hd & Hc & Hk & Hs).
  eexists. cbn zeta. rewrite Ht.
  unfold declared, constraints, costs, solver_calls in *.
  rewrite !flat_map_app, Hd, Hc, Hk, Hs, !app_nil_r.
  repeat split.
Qed.

(** X7. The problem of manually_choosing_a_solver.cpp (minimize x0 under
    x0 + x1 = 1 and 0 <= x1 <= 1): every feasible point costs at least 0,
    and exactly 0 only at (0, 1). *)
Theorem manually_choosing_a_solver_optimum :
  forall (o : Oracle) (argc : Z) (argv : list string) (env : Var -> R),
    let t := trace o (manually_choosing_a_solver.main argc argv) in
    feasible env t ->
    (total_cost env t >= 0)%R /\
    (total_cost env t = 0%R <-> map env (declared t) = [0%R; 1%R]).
Proof.
  intros o argc argv env t.
  destruct (manually_choosing_a_solver_problem o argc argv)
    as (x & Hd & Hc & Hk).
  fold t in Hd, Hc, Hk.
  unfold feasible, total_cost. rewrite Hd, Hc, Hk.
  rewrite !Forall_cons_iff. cbn.
  generalize (env x[0]) (env x[1]). intros a b (Heq & Hlo & Hhi & _).
  split; [lra |]. split.
  - intros Hcost. assert (a = 0%R) by lra. assert (b = 1%R) by lra.
    now subst.
  - intros [= -> _]. lra.
Qed.

(** The point (0, 1) is feasible against the sample library, whose
    variables are numbered 10 and 11. *)
Lemma manually_choosing_a_solver_optimum_witness :
  let env : Var -> R := fun v => if Nat.eqb v 11 then 1%R else 0%R in
  let t := trace (library all_files true)
             (start manually_choosing_a_solver.main []) in
  feasible env t /\
  ((total_cost env t >= 0)%R /\
   (total_cost env t = 0%R <-> map env (declared t) = [0%R; 1%R])).
Proof.
  intros env t.
  assert (F : feasible env t) by (repeat constructor; cbn; lra).
  split; [exact F |].
  exact (manually_choosing_a_solver_optimum (library all_files true) 0 []
           env F).
Defined.

(** X8. The problem of good_or_bad_initial_guess.cpp (minimize
    x0^2 - x1^2 on the circle x0^2 + x1^2 = 100): the cost of a feasible
    point lies between -100 and 100, and it is -100 exactly at (0, 10)
    and (0, -10). *)
Theorem good_or_bad_initial_guess_optimum :
  forall (o : Oracle) (argc : Z) (argv : list string) (env : Var -> R),
    let t := trace o (good_or_bad_initial_guess.main argc argv) in
    feasible env t ->
    (-100 <= total_cost env t <= 100)%R /\
    (total_cost env t = (-100)%R <->
     map env (declared t) = [0%R; 10%R] \/
     map env (declared t) = [0%R; (-10)%R]).
Proof.
  intros o argc argv env t.
  destruct (good_or_bad_initial_guess_problem o argc argv)
    as (x & Hd & Hc & Hk).
  fold t in Hd, Hc, Hk.
  unfold feasible, total_cost. rewrite Hd, Hc, Hk.
  rewrite !Forall_cons_iff. cbn.
  generalize (env x[0]) (env x[1]). intros a b (Heq & _).
  split; [nra |]. split.
  - intros Hcost. assert (Ha : a = 0%R) by nra. subst a.
    assert (Hb : ((b - 10) * (b + 10) = 0)%R) by nra.
    apply Rmult_integral in Hb. destruct Hb as [Hb | Hb].
    + left. f_equal. f_equal. lra.
    + right. f_equal. f_equal. lra.
  - intros [[= -> ->] | [= -> ->]]; lra.
Qed.

(** The point (0, 10) is feasible against the sample library. *)
Lemma good_or_bad_initial_guess_optimum_witness :
  let env : Var -> R := fun v => if Nat.eqb v 11 then 10%R else 0%R in
  let t := trace (library all_files true)
             (start good_or_bad_initial_guess.main []) in
  feasible env t /\
  ((-100 <= total_cost env t <= 100)%R /\
   (total_cost env t = (-100)%R <->
    map env (declared t) = [0%R; 10%R] \/
    map env (declared t) = [0%R; (-10)%R])).
Proof.
  intros env t.
  assert (F : feasible env t) by (repeat constructor; cbn; lra).
  split; [exact F |].
  exact (good_or_bad_initial_guess_optimum (library all_files true) 0 []
           env F).
Defined.

(** X9. The problem of add_callback.cpp (minimize x0^2 + x1^2 under
    x0 * x1 = 9): every feasible point costs at least 18, and exactly 18
    only at (3, 3) and (-3, -3). *)
Theorem add_callback_optimum :
  forall (o : Oracle) (argc : Z) (argv : list string) (env : Var -> R),
    let t := trace o (add_callback.main argc argv) in
    feasible env t ->
    (total_cost env t >= 18)%R /\
    (total_cost env t = 18%R <->
     map env (declared t) = [3%R; 3%R] \/
     map env (declared t) = [(-3)%R; (-3)%R]).
Proof.
  intros o argc argv env t.
  destruct (add_callback_problem o argc argv) as (x & Hd & Hc & Hk & _).
  fold t in Hd, Hc, Hk.
  unfold feasible, total_cost. rewrite Hd, Hc, Hk.
  rewrite !Forall_cons_iff. cbn.
  generalize (env x[0]) (env x[1]). intros a b (Heq & _).
  assert (Hsq : (0 <= (a - b) * (a - b))%R) by apply Rle_0_sqr.
  split; [nra |]. split.
  - intros Hcost.
    assert (Hab : ((a - b) * (a - b) = 0)%R) by nra.
    apply Rmult_integral in Hab.
    assert (a = b) by (destruct Hab; lra). subst b.
    assert (Ha : ((a - 3) * (a + 3) = 0)%R) by nra.
    apply Rmult_integral in Ha. destruct Ha as [Ha | Ha].
    + left. assert (a = 3%R) by lra. now subst.
    + right. assert (a = (-3)%R) by lra. now subst.
  - intros [[= -> ->] | [= -> ->]]; lra.
Qed.

(** The point (3, 3) is feasible against the sample library. *)
Lemma add_callback_optimum_witness :
  let env : Var -> R := fun _ => 3%R in
  let t := trace (library all_files true) (start add_callback.main []) in
  feasible env t /\
  ((total_cost env t >= 18)%R /\
   (total_cost env t = 18%R <->
    map env (declared t) = [3%R; 3%R] \/
    map env (declared t) = [(-3)%R; (-3)%R])).
Proof.
  intros env t.
  assert (F : feasible env t).
  { destruct (add_callback_problem (library all_files true) 0 [])
      as (x & _ & Hc & _).
    unfold feasible. subst t. unfold start, argc_of. cbn [length Z.of_nat].
    rewrite Hc. repeat constructor. subst env. cbn. lra. }
  split; [exact F |].
  exact (add_callback_optimum (library all_files true) 0 [] env F).
Defined.

(** ** symbolic_vector_system.cpp *)

(** What symbolic_vector_system.cpp hands to the system builder. *)
Lemma symbolic_vector_system_system (o : Oracle) (argc : Z)
    (argv : list string) :
  exists x : Var,
    let t := trace o (symbolic_vector_system.main argc argv) in
    state_variables t = [x] /\
    dynamics t = [ (- x + Pow x 3)%sym ] /\
    output_variables t = [x].
Proof.
  exists (o 0%nat _ (Variable_ctor "x")). cbn zeta.
  split; [reflexivity |]. split; reflexivity.
Qed.

(** -a + a^3 = a (a - 1) (a + 1) *)
Lemma cubic_factors (a : R) :
  (- a + a ^ 3 = a * ((a - 1) * (a + 1)))%R.
Proof. ring. Qed.

(** X10. The system of symbolic_vector_system.cpp has one state, which is
    also its output, and the dynamics -x + x^3: the derivative vanishes
    exactly at -1, 0 and 1, is negative for 0 < x < 1 and positive for
    x > 1.  The one initial state that [main] sets lies strictly between
    0 and 1. *)
Theorem symbolic_vector_system_dynamics :
  forall (o : Oracle) (argc : Z) (argv : list string) (env : Var -> R),
    let t := trace o (symbolic_vector_system.main argc argv) in
    output_variables t = state_variables t /\
    length (state_variables t) = 1%nat /\
    length (dynamics t) = 1%nat /\
    (Forall (fun e => Evaluate env e = 0%R) (dynamics t) <->
     Forall (fun x => env x = (-1)%R \/ env x = 0%R \/ env x = 1%R)
       (state_variables t)) /\
    (Forall (fun x => (0 < env x < 1)%R) (state_variables t) ->
     Forall (fun e => (Evaluate env e < 0)%R) (dynamics t)) /\
    (Forall (fun x => (1 < env x)%R) (state_variables t) ->
     Forall (fun e => (Evaluate env e > 0)%R) (dynamics t)) /\
    Forall (Forall (fun x0 : double =>
                      (0 <? x0)%float = true /\ (x0 <? 1)%float = true))
           (initial_states t) /\
    map (@length double) (initial_states t) = [1%nat].
Proof.
  intros o argc argv env t.
  destruct (symbolic_vector_system_system o argc argv) as (x & Hs & Hd & Ho).
  fold t in Hs, Hd, Ho. rewrite Hs, Hd, Ho.
  rewrite !Forall_cons_iff. cbn [Evaluate]. rewrite cubic_factors.
  generalize (env x). intros a.
  split; [reflexivity |]. split; [reflexivity |]. split; [reflexivity |].
  split; [split | split; [| split; [| split]]].
  - intros (H & _). split; [| constructor].
    apply Rmult_integral in H. destruct H as [H | H]; [lra |].
    apply Rmult_integral in H. destruct H as [H | H]; lra.
  - intros ([-> | [-> | ->]] & _); (split; [lra | constructor]).
  - intros ((Hlo & Hhi) & _). split; [| constructor].
    assert ((a - 1) * (a + 1) < 0)%R by nra. nra.
  - intros (Hhi & _). split; [| constructor].
    assert (0 < (a - 1) * (a + 1))%R by nra. nra.
  - repeat constructor.
  - reflexivity.
Qed.

(** At x = 9/10 the derivative is negative. *)
Lemma symbolic_vector_system_dynamics_witness :
  let env : Var -> R := fun _ => (9 / 10)%R in
  let t := trace (library all_files true)
             (start symbolic_vector_system.main []) in
  Forall (fun x => (0 < env x < 1)%R) (state_variables t) /\
  Forall (fun e => (Evaluate env e < 0)%R) (dynamics t).
Proof.
  intros env t.
  assert (H : Forall (fun x => (0 < env x < 1)%R) (state_variables t))
    by (repeat constructor; subst env; cbn; lra).
  split; [exact H |].
  exact (proj1 (proj2 (proj2 (proj2 (proj2
           (symbolic_vector_system_dynamics (library all_files true) 0 []
              env))))) H).
Defined.

(** ** The solver calls *)


(** X12. In every program that calls a solver, each initial guess has as
    many entries as the program has declared decision variables. *)
Theorem initial_guesses_have_one_entry_per_variable :
  Forall (fun main : Main =>
            forall (o : Oracle) (argc : Z) (argv : list string),
              let t := trace o (main argc argv) in
              Forall (fun guess : VectorXd =>
                        length guess = length (declared t))
                     (initial_guesses t))
         solver_examples.
Proof.
  apply Forall_cons.
  - intros o argc argv t.
    destruct (add_callback_problem o argc argv) as (x & Hd & _ & _ & Hs).
    fold t in Hd, Hs. unfold initial_guesses. rewrite Hd, Hs.
    repeat constructor.
  - repeat (apply Forall_cons;
            [intros o argc argv t; subst t; repeat constructor |]).
    apply Forall_nil.
Qed.
